(** * Type inference for NumPy calls: [numba/type_inference/modules/numpymodule.py]

    A shallow embedding of the resolvers of [numpymodule.py], which compute
    the result type of calls such as [np.empty], [np.dot] or [np.sum] from
    the types of their arguments, and the properties of these resolvers.

    Python values are dynamically typed and every attribute access can fail;
    the embedding keeps that: a function of the module becomes a function
    into [result], whose [Raise] is a Python exception leaving the call. *)

From stdpp Require Import base option strings gmap.
From Stdlib Require Import ZArith Lia.

Local Open Scope Z_scope.

(** ** Exceptions and the result of a call *)

Inductive exn : Set :=
| AttributeError   (* an attribute read on an object that lacks it *)
| TypeError.       (* [issubclass] on a non-class, [np.dtype] on a non-type *)

Inductive result (A : Type) : Type :=
| Ok (a : A)
| Raise (e : exn).
Arguments Ok {A} a.
Arguments Raise {A} e.

#[global] Instance result_ret : MRet result := fun _ a => Ok a.
#[global] Instance result_bind : MBind result := fun _ _ f m =>
  match m with
  | Ok a => f a
  | Raise e => Raise e
  end.

Definition raises {A} (m : result A) : bool :=
  match m with Ok _ => false | Raise _ => true end.

(** ** The values the module handles *)

(** Scalar element kinds.  The module names three of them: [float64],
    [int64] and [npy_intp]. *)
Inductive scalar : Set :=
| KBool
| KInt (bits : Z) (signed : bool)
| KIntp
| KFloat (bits : Z)
| KComplex (bits : Z).

(** What [getattr(module, name, None)] can find in a Python module such as
    [numpy]: an instance of [np.dtype], a scalar class (a subclass of
    [np.generic], such as [np.float64]), another class ([np.ndarray]), or a
    value that is not a class (a function, a constant). *)
Inductive np_member : Set :=
| NpDtype (s : scalar)
| NpGeneric (s : scalar)
| NpClass
| NpValue.

(** The type objects ([minitypes]/[typesystem]) with the attributes the
    module reads: [dtype], [ndim], [size], [is_sized], [module], [attr].
    An argument of a resolver is [None] or an AST node whose
    [variable.type] is known; [array_from_type] hands the [dtype] of a
    tuple or list type to [array_from_object], which reads [.variable.type]
    from it, so that attribute holds a Python value of any sort.

    The [dtype] attribute of a dtype-value type built by this module is
    not a type of the type system but an instance of [numpy.dtype]
    ([NumpyDtypeType(dtype=np.dtype(...))]), and [typesystem.array] is
    handed that instance as element; [reduce_] can even return it.  So the
    instances of [numpy.dtype] stand among the values found where a type is
    expected, as [DtypeObject].  The variable of a node never has one as
    its type, so the module never asks one for a flag. *)
Inductive ntype : Type :=
| Scalar (s : scalar)
| ArrayType (dtype : ntype) (ndim : Z)
| NumpyDtypeType (dtype : ntype)
| NumpyAttributeType (module : gmap string np_member) (attr : string)
| TupleType (dtype : pyval) (size : Z) (is_sized : bool)
| ListType (dtype : pyval) (size : Z) (is_sized : bool)
| ObjectType
| DtypeObject (s : scalar)
with pyval : Type :=
| PNone
| Node (variable_type : ntype)
| PType (t : ntype).

Scheme ntype_mut := Induction for ntype Sort Prop
  with pyval_mut := Induction for pyval Sort Prop.
Combined Scheme ntype_pyval_mutind from ntype_mut, pyval_mut.

Definition float64 : ntype := Scalar (KFloat 64).
Definition int64 : ntype := Scalar (KInt 64 true).
Definition npy_intp : ntype := Scalar KIntp.
Definition object_ : ntype := ObjectType.

(** [t[:]]: slicing a type gives the one-dimensional array of it. *)
Definition slice1 (t : ntype) : ntype := ArrayType t 1.

(** [index_array_t = npy_intp[:]] *)
Definition index_array_t : ntype := slice1 npy_intp.

(** *** Classification flags ([type.is_...]) *)

Definition is_array (t : ntype) : bool :=
  match t with ArrayType _ _ => true | _ => false end.
Definition is_tuple (t : ntype) : bool :=
  match t with TupleType _ _ _ => true | _ => false end.
Definition is_list (t : ntype) : bool :=
  match t with ListType _ _ _ => true | _ => false end.
Definition is_int (t : ntype) : bool :=
  match t with Scalar (KInt _ _) | Scalar KIntp => true | _ => false end.
Definition is_numpy_dtype (t : ntype) : bool :=
  match t with NumpyDtypeType _ => true | _ => false end.
Definition is_numpy_attribute (t : ntype) : bool :=
  match t with NumpyAttributeType _ _ => true | _ => false end.
Definition is_sized (t : ntype) : bool :=
  match t with
  | TupleType _ _ b | ListType _ _ b => b
  | _ => false
  end.
(** Scalars and arrays are native; everything else is a Python object at
    run time. *)
Definition is_object (t : ntype) : bool :=
  match t with
  | Scalar _ | ArrayType _ _ => false
  | _ => true
  end.

(** *** Attribute reads *)

(** [a.variable.type]: only AST nodes have a variable. *)
Definition variable_type_of (a : pyval) : result ntype :=
  match a with
  | Node t => Ok t
  | PNone | PType _ => Raise AttributeError
  end.

(** [t.dtype] on any type object (used for [array_type.dtype]). *)
Definition dtype_attr (t : ntype) : result pyval :=
  match t with
  | ArrayType d _ | NumpyDtypeType d => Ok (PType d)
  | TupleType d _ _ | ListType d _ _ => Ok d
  | _ => Raise AttributeError
  end.

(** [t.dtype] where [t] is an array type or what [get_dtype] returned
    ([None] or a dtype-value type): the attribute is a type. *)
Definition dtype_of (t : option ntype) : result ntype :=
  match t with
  | Some (ArrayType d _) | Some (NumpyDtypeType d) => Ok d
  | _ => Raise AttributeError
  end.

(** [t.ndim] *)
Definition ndim_of (t : ntype) : result Z :=
  match t with
  | ArrayType _ n => Ok n
  | _ => Raise AttributeError
  end.

(** [t.size] *)
Definition size_of (t : ntype) : result Z :=
  match t with
  | TupleType _ n _ | ListType _ n _ => Ok n
  | _ => Raise AttributeError
  end.

(** Truth value of an argument ([if dtype:]): only [None] is false. *)
Definition truthy (a : pyval) : bool :=
  match a with PNone => false | _ => true end.

Definition is_None (a : pyval) : bool :=
  match a with PNone => true | _ => false end.

(** ** Collaborators outside the module *)

(** NumPy's [np.dtype(x)]: an instance of [numpy.dtype] is returned as it
    is and [None] is read as float64; a type object of the type system, or
    an AST node, is no data type for NumPy, which raises [TypeError]. *)
Definition np_dtype (v : pyval) : result ntype :=
  match v with
  | PType (DtypeObject s) => Ok (DtypeObject s)
  | PNone => Ok (DtypeObject (KFloat 64))
  | PType _ | Node _ => Raise TypeError
  end.

(** [x[:]] on a value found where a type is expected: a type of the type
    system gives its one-dimensional array; an instance of [numpy.dtype]
    cannot be subscripted and raises [TypeError]. *)
Definition getitem_slice (x : ntype) : result ntype :=
  match x with
  | DtypeObject _ => Raise TypeError
  | _ => Ok (slice1 x)
  end.

(** Modelled from the spec: [typesystem.array(dtype, ndim)] is the array
    type of that element kind and that rank ("result
    ArrayType{dtype.element, rank}"); no validation of the rank. *)
Definition typesystem_array (dtype : ntype) (ndim : Z) : ntype :=
  ArrayType dtype ndim.

(** Modelled from the spec: [typesystem.tuple_(base, size)] is the sized
    tuple type of [size] elements of type [base], and
    [typesystem.tuple_(base)] the singleton one ("singleton (size-1) tuple
    of the same index-array kind"). *)
Definition tuple_ (base_type : ntype) (size : option Z) : ntype :=
  match size with
  | Some n => TupleType (PType base_type) n true
  | None => TupleType (PType base_type) 1 true
  end.

(** Modelled from the spec: [get_type(node)] "retrieves the already-computed
    static type of an already-type-inferred sub-expression", the type of
    the node's variable. *)
Definition get_type (a : pyval) : result ntype := variable_type_of a.

(** [type.copy(dtype=d)]: on an array type, the same array type with
    another element kind ("overrides element kind only (rank preserved)");
    a type that is no array has no such copy and the call leaves with
    [AttributeError]. *)
Definition copy_with_dtype (t d : ntype) : result ntype :=
  match t with
  | ArrayType _ n => Ok (ArrayType d n)
  | _ => Raise AttributeError
  end.

(** The [context] object: the module uses its [promote_types] only. *)
Record context : Type := { promote_types : ntype -> ntype -> ntype }.

(** ** Some utilities *)

(** [isinstance(x, np.dtype)] on the outcome of [getattr(..., None)]. *)
Definition isinstance_np_dtype (x : option np_member) : bool :=
  match x with Some (NpDtype _) => true | _ => false end.

(** [issubclass(x, np.generic)]: raises [TypeError] unless [x] is a
    class. *)
Definition issubclass_np_generic (x : option np_member) : result bool :=
  match x with
  | Some (NpGeneric _) => Ok true
  | Some NpClass => Ok false
  | Some (NpDtype _) | Some NpValue | None => Raise TypeError
  end.

(** The [numpy.dtype] instance a namespace member denotes: the instance
    itself, or [np.dtype(cls)] for a scalar class. *)
Definition member_dtype (x : option np_member) : result ntype :=
  match x with
  | Some (NpDtype s) | Some (NpGeneric s) => Ok (DtypeObject s)
  | _ => Raise TypeError
  end.

Module NumpyModule.

(** Resolve the type for numpy dtype attributes.  (The [default]
    parameter of the source is never read and no caller passes it.) *)
Definition resolve_attribute_dtype (dtype : ntype) : result (option ntype) :=
  if is_numpy_dtype dtype then Ok (Some dtype)
  else
    match dtype with
    | NumpyAttributeType module attr =>
        let numpy_attr := module !! attr in
        if isinstance_np_dtype numpy_attr then
          d ← member_dtype numpy_attr; Ok (Some (NumpyDtypeType d))
        else
          b ← issubclass_np_generic numpy_attr;
          if b : bool then
            d ← member_dtype numpy_attr; Ok (Some (NumpyDtypeType d))
          else Ok None
    | _ => Ok None
    end.

Definition get_dtype (dtype_arg default_dtype : pyval) : result (option ntype) :=
  if is_None dtype_arg then
    if is_None default_dtype then Ok None
    else d ← np_dtype default_dtype; Ok (Some (NumpyDtypeType d))
  else
    t ← variable_type_of dtype_arg; resolve_attribute_dtype t.

Definition promote_to_array (dtype : ntype) : ntype :=
  if negb (is_array dtype) then ArrayType dtype 0 else dtype.

Fixpoint array_from_type (type : ntype) : result ntype :=
  if is_array type then Ok type
  else
    match type with
    | TupleType d _ _ | ListType d _ _ =>
        dtype ← array_from_object d;
        match dtype with
        | ArrayType e n => Ok (ArrayType e (n + 1))
        | _ => Ok object_
        end
    | _ =>
        if negb (is_object type) then Ok (ArrayType type 0)
        else Ok object_
    end
with array_from_object (a : pyval) : result ntype :=
  match a with
  | Node t => array_from_type t
  | PNone | PType _ => Raise AttributeError
  end.

(** *** Resolution of NumPy calls *)

Definition dtype (obj align : pyval) : result (option ntype) :=
  if is_None obj then Ok None
  else get_dtype obj PNone.

Definition empty_like (a dtype order : pyval) : result (option ntype) :=
  if is_None a then Ok None
  else
    type ← get_type a;
    if is_array type then
      if truthy dtype then
        dtype_type ← get_dtype dtype PNone;
        match dtype_type with
        | None => Ok (Some type)
        | Some _ =>
            d ← dtype_of dtype_type;
            n ← ndim_of type;
            Ok (Some (typesystem_array d n))
        end
      else
        d ← dtype_of (Some type);
        n ← ndim_of type;
        Ok (Some (typesystem_array d n))
    else Ok None.

Definition empty (shape dtype order : pyval) : result (option ntype) :=
  if is_None shape then Ok None
  else
    dtype ← get_dtype dtype (PType float64);
    shape_type ← get_type shape;
    if is_int shape_type then
      d ← dtype_of dtype; Ok (Some (typesystem_array d 1))
    else if is_tuple shape_type || is_list shape_type then
      ndim ← size_of shape_type;
      d ← dtype_of dtype; Ok (Some (typesystem_array d ndim))
    else Ok None.

Definition arange (start stop step dtype : pyval) : result (option ntype) :=
  dtype_type ← get_dtype dtype (PType int64);
  match dtype_type with
  | Some _ => d ← dtype_of dtype_type; r ← getitem_slice d; Ok (Some r)
  | None => Ok None
  end.

Definition dot (ctx : context) (a b out : pyval) : result (option ntype) :=
  if negb (is_None out) then t ← get_type out; Ok (Some t)
  else
    ta ← get_type a;
    let lhs_type := promote_to_array ta in
    tb ← get_type b;
    let rhs_type := promote_to_array tb in
    ld ← dtype_of (Some lhs_type);
    rd ← dtype_of (Some rhs_type);
    let dtype := promote_types ctx ld rd in
    ln ← ndim_of lhs_type;
    rn ← ndim_of rhs_type;
    let dst_ndim := ln + rn - 2 in
    Ok (Some (typesystem_array dtype dst_ndim)).

Definition array (object dtype order subok : pyval) : result (option ntype) :=
  type ← array_from_object object;
  if negb (is_None dtype) then
    d ← get_type dtype; r ← copy_with_dtype type d; Ok (Some r)
  else Ok (Some type).

Definition _nonzero (type : ntype) : result ntype :=
  if is_array type then
    n ← ndim_of type; Ok (tuple_ index_array_t (Some n))
  else Ok (tuple_ index_array_t None).

Definition nonzero (a : pyval) : result (option ntype) :=
  t ← array_from_object a;
  r ← _nonzero t;
  Ok (Some r).

Definition where_ (ctx : context) (condition x y : pyval)
  : result (option ntype) :=
  if is_None x && is_None y then nonzero condition
  else
    xtype ← array_from_object x;
    ytype ← array_from_object y;
    Ok (Some (promote_types ctx xtype ytype)).

Definition reduce_ (a axis dtype out : pyval) : result (option ntype) :=
  if negb (is_None out) then t ← get_type out; Ok (Some t)
  else
    array_type ← get_type a;
    default_dtype ← dtype_attr array_type;
    dt ← get_dtype dtype default_dtype;
    dtype_type ← dtype_of dt;
    if is_None axis then Ok (Some dtype_type)
    else
      axis_type ← get_type axis;
      if is_tuple axis_type && is_sized axis_type then
        n ← ndim_of array_type;
        k ← size_of axis_type;
        Ok (Some (typesystem_array dtype_type (n - k)))
      else if is_int axis_type then
        n ← ndim_of array_type;
        Ok (Some (typesystem_array dtype_type (n - 1)))
      else Ok (Some object_).

(** *** The catalogue

    [@register(np)] and [register_inferer(np, name, f)] bind a name of the
    [numpy] namespace to a resolver.  A resolver is called with the context
    and the arguments bound to its parameters, [None] for a parameter that
    received no argument. *)

Definition inferer : Type := context -> list pyval -> result (option ntype).

Definition param (args : list pyval) (i : nat) : pyval :=
  default PNone (args !! i).

Definition registry : list (string * inferer) :=
  [ ("dtype", fun _ p => dtype (param p 0) (param p 1));
    ("empty_like", fun _ p => empty_like (param p 0) (param p 1) (param p 2));
    ("zeros_like", fun _ p => empty_like (param p 0) (param p 1) (param p 2));
    ("ones_like", fun _ p => empty_like (param p 0) (param p 1) (param p 2));
    ("empty", fun _ p => empty (param p 0) (param p 1) (param p 2));
    ("zeros", fun _ p => empty (param p 0) (param p 1) (param p 2));
    ("ones", fun _ p => empty (param p 0) (param p 1) (param p 2));
    ("arange", fun _ p =>
       arange (param p 0) (param p 1) (param p 2) (param p 3));
    ("dot", fun c p => dot c (param p 0) (param p 1) (param p 2));
    ("array", fun _ p =>
       array (param p 0) (param p 1) (param p 2) (param p 3));
    ("nonzero", fun _ p => nonzero (param p 0));
    ("where", fun c p => where_ c (param p 0) (param p 1) (param p 2));
    ("sum", fun _ p =>
       reduce_ (param p 0) (param p 1) (param p 2) (param p 3));
    ("prod", fun _ p =>
       reduce_ (param p 0) (param p 1) (param p 2) (param p 3)) ]%string.

Fixpoint lookup_inferer (name : string) (reg : list (string * inferer))
  : option inferer :=
  match reg with
  | [] => None
  | (n, f) :: reg' => if String.eqb n name then Some f else lookup_inferer name reg'
  end.

(** Calling the resolver registered under [name]; [None] when the
    catalogue has no such name. *)
Definition call (ctx : context) (name : string) (args : list pyval)
  : option (result (option ntype)) :=
  f ← lookup_inferer name registry; Some (f ctx args).

End NumpyModule.

(** ** A NumPy namespace to evaluate on *)

Definition np : gmap string np_member :=
  list_to_map
    [ ("float64", NpGeneric (KFloat 64)); ("double", NpGeneric (KFloat 64));
      ("float32", NpGeneric (KFloat 32)); ("int32", NpGeneric (KInt 32 true));
      ("int64", NpGeneric (KInt 64 true)); ("bool_", NpGeneric KBool);
      ("complex128", NpGeneric (KComplex 128));
      ("ndarray", NpClass); ("pi", NpValue); ("zeros", NpValue) ]%string.

(** A context whose promotion keeps the left operand; any other would do
    where a concrete one is needed. *)
Definition ctx0 : context := {| promote_types := fun a _ => a |}.

Import NumpyModule.

(** ** Shapes of input used to state properties *)

(** One level of a sequence literal: a tuple ([true]) or a list type with
    its [size] and [is_sized] attributes, whose element is a node. *)
Definition level : Type := bool * Z * bool.

Definition wrap (w : level) (t : ntype) : ntype :=
  let '(tup, size, sized) := w in
  if tup : bool then TupleType (Node t) size sized
  else ListType (Node t) size sized.

(** The type of a literal nested as [ws] says, outermost first, around
    elements of type [t]. *)
Fixpoint sequence_of (ws : list level) (t : ntype) : ntype :=
  match ws with
  | [] => t
  | w :: ws' => wrap w (sequence_of ws' t)
  end.



(** A context whose promotion does not depend on the order of the
    operands. *)
Definition ctx_sym : context :=
  {| promote_types := fun a b =>
       if is_array a || is_array b then object_ else float64 |}.

Example ex_resolve_double :
  resolve_attribute_dtype (NumpyAttributeType np "double")
  = Ok (Some (NumpyDtypeType (DtypeObject (KFloat 64)))).
Proof. vm_compute. reflexivity. Qed.

Example ex_zeros :
  call ctx0 "zeros"
    [Node (TupleType (PType int64) 2 true);
     Node (NumpyAttributeType np "float64")]
  = Some (Ok (Some (ArrayType (DtypeObject (KFloat 64)) 2))).
Proof. vm_compute. reflexivity. Qed.

Example ex_array_nested :
  array (Node (ListType (Node (ListType (Node int64) 2 true)) 2 true))
        PNone PNone PNone
  = Ok (Some (ArrayType int64 2)).
Proof. reflexivity. Qed.

(** ** Shared facts about the utilities *)

Lemma bind_Ok {A B} (a : A) (f : A -> result B) : (Ok a ≫= f) = f a.
Proof. reflexivity. Qed.

(** With no dtype argument the default goes through [np.dtype]: an
    instance of [numpy.dtype] is wrapped as a dtype value, a type of the
    type system is rejected. *)
Lemma get_dtype_absent (default_dtype : ntype) :
  get_dtype PNone (PType default_dtype)
  = match default_dtype with
    | DtypeObject s => Ok (Some (NumpyDtypeType (DtypeObject s)))
    | _ => Raise TypeError
    end.
Proof. destruct default_dtype; reflexivity. Qed.

(** With a dtype argument, [get_dtype] is [resolve_attribute_dtype] on the
    argument's type, whatever the default. *)
Lemma get_dtype_present (t : ntype) (default_dtype : pyval) :
  get_dtype (Node t) default_dtype = resolve_attribute_dtype t.
Proof. reflexivity. Qed.

(** What [resolve_attribute_dtype] returns is a dtype-value type. *)
Lemma resolve_attribute_dtype_is_numpy_dtype (t r : ntype) :
  resolve_attribute_dtype t = Ok (Some r) -> is_numpy_dtype r = true.
Proof.
  unfold resolve_attribute_dtype.
  destruct (is_numpy_dtype t) eqn:Hd.
  - intros [= <-]. exact Hd.
  - destruct t as [| | | m a | | | |]; try discriminate.
    destruct (m !! a) as [[s|s| |]|]; cbn; intros [= <-]; reflexivity.
Qed.

(** A type that is neither a dtype value nor an attribute token has no
    dtype. *)
Lemma resolve_attribute_dtype_other (t : ntype) :
  is_numpy_dtype t = false -> is_numpy_attribute t = false ->
  resolve_attribute_dtype t = Ok None.
Proof.
  unfold resolve_attribute_dtype. intros -> Ha.
  destruct t; try reflexivity. discriminate Ha.
Qed.



(** The only exception [array_from_type] and [array_from_object] leave
    with is [AttributeError]. *)
Lemma array_from_no_TypeError :
  (forall t, array_from_type t <> Raise TypeError)
  /\ (forall a, array_from_object a <> Raise TypeError).
Proof.
  apply (ntype_pyval_mutind
           (fun t => array_from_type t <> Raise TypeError)
           (fun a => array_from_object a <> Raise TypeError));
    cbn; try discriminate; try (intros; assumption).
  - intros d IH n b. destruct (array_from_object d) as [[]|[]];
      cbn; try discriminate. congruence.
  - intros d IH n b. destruct (array_from_object d) as [[]|[]];
      cbn; try discriminate. congruence.
Qed.

Lemma array_from_type_no_TypeError (t : ntype) :
  array_from_type t <> Raise TypeError.
Proof. apply array_from_no_TypeError. Qed.

(** ** Absent arguments *)

(** C1.  The resolvers are not total over their parameters: [where] with
    exactly one of [x] and [y] absent, and [array] and [nonzero] with their
    first argument absent, read [.variable] from [None] in
    [array_from_object] and leave with [AttributeError]; so does
    [empty]/[zeros]/[ones] when the dtype argument is present and has no
    dtype, reading [.dtype] from [None].  The resolvers [dtype],
    [empty_like] and [empty] test their first argument for [None]
    first. *)
Theorem resolvers_raise_on_absent_argument :
  forall (ctx : context) (c dt order subok : pyval) (t : ntype),
    call ctx "where" [c; PNone; Node t] = Some (Raise AttributeError)
    /\ call ctx "where" [c; Node t; PNone] = Some (Raise AttributeError)
    /\ call ctx "array" [PNone; dt; order; subok] = Some (Raise AttributeError)
    /\ call ctx "nonzero" [PNone] = Some (Raise AttributeError)
    /\ call ctx "zeros" [Node int64; Node int64; order]
       = Some (Raise AttributeError)
    /\ call ctx "dtype" [PNone; dt] = Some (Ok None)
    /\ call ctx "empty_like" [PNone; dt; order] = Some (Ok None)
    /\ call ctx "empty" [PNone; dt; order] = Some (Ok None).
Proof.
  intros ctx c dt order subok t.
  repeat apply conj; try reflexivity.
  cbn. unfold where_. cbn.
  destruct (array_from_type t) as [r | e] eqn:Hr; cbn; [reflexivity |].
  destruct e; [reflexivity |].
  now apply array_from_type_no_TypeError in Hr.
Qed.

(** ** Resolution of dtypes *)

(** C2.  [resolve_attribute_dtype] and [get_dtype] do not answer "no
    result" for every attribute token: when the attribute is missing from
    the namespace, [getattr(..., None)] gives [None] and
    [issubclass(None, np.generic)] leaves with [TypeError]; the same for a
    member that is not a class.  A member that is a class but no scalar
    class, and a type that is neither a dtype value nor an attribute token,
    give no result. *)
Theorem resolve_attribute_dtype_raises_on_missing_attribute :
  forall (module : gmap string np_member) (attr : string) (default_dtype : pyval),
    resolve_attribute_dtype (NumpyAttributeType (delete attr module) attr)
    = Raise TypeError
    /\ get_dtype (Node (NumpyAttributeType (delete attr module) attr))
         default_dtype
       = Raise TypeError
    /\ resolve_attribute_dtype
         (NumpyAttributeType (<[attr := NpValue]> module) attr)
       = Raise TypeError
    /\ resolve_attribute_dtype
         (NumpyAttributeType (<[attr := NpClass]> module) attr)
       = Ok None
    /\ resolve_attribute_dtype (NumpyAttributeType np "no_such_dtype")
       = Raise TypeError
    /\ resolve_attribute_dtype (NumpyAttributeType np "pi") = Raise TypeError.
Proof.
  intros module attr default_dtype.
  assert (Hmiss :
    resolve_attribute_dtype (NumpyAttributeType (delete attr module) attr)
    = Raise TypeError).
  { unfold resolve_attribute_dtype. cbn. now rewrite lookup_delete_eq. }
  repeat apply conj.
  - exact Hmiss.
  - rewrite get_dtype_present. exact Hmiss.
  - unfold resolve_attribute_dtype. cbn. now rewrite lookup_insert_eq.
  - unfold resolve_attribute_dtype. cbn. now rewrite lookup_insert_eq.
  - vm_compute. reflexivity.
  - vm_compute. reflexivity.
Qed.

(** ** Constructors: [empty], [zeros], [ones] *)

(** C3.  [zeros] (and [empty], [ones], which share the resolver) called
    with a shape whose type is a sized tuple of two elements and with no
    dtype and no order does not yield the float64 array of rank 2: the
    default is handed to [get_dtype] as the type [float64] of the type
    system, [np.dtype] rejects it, and the call leaves with [TypeError].
    The rank 2 is reached once the dtype argument is a float64 token. *)
Theorem zeros_of_sized_pair_raises :
  forall (ctx : context) (element order : pyval),
    let shape := Node (TupleType element 2 true) in
    call ctx "zeros" [shape; PNone; PNone] = Some (Raise TypeError)
    /\ call ctx "empty" [shape; PNone; PNone] = Some (Raise TypeError)
    /\ call ctx "ones" [shape; PNone; PNone] = Some (Raise TypeError)
    /\ get_dtype PNone (PType float64) = Raise TypeError
    /\ call ctx "zeros" [shape; Node (NumpyAttributeType np "float64"); order]
       = Some (Ok (Some (ArrayType (DtypeObject (KFloat 64)) 2))).
Proof.
  intros ctx element order shape. repeat apply conj; reflexivity.
Qed.

(** ** Reductions: [sum], [prod] *)

(** [sum] and [prod] are both bound to [reduce_]. *)
Lemma call_sum_prod (ctx : context) (a axis dtype out : pyval) :
  call ctx "sum" [a; axis; dtype; out] = Some (reduce_ a axis dtype out)
  /\ call ctx "prod" [a; axis; dtype; out] = Some (reduce_ a axis dtype out).
Proof. split; reflexivity. Qed.

(** The body of [reduce_] once [out] is absent, [a] is an array and the
    dtype is resolved. *)
Lemma reduce_array_resolved (e d : ntype) (R : Z) (axis dtype : pyval) :
  get_dtype dtype (PType e) = Ok (Some (NumpyDtypeType d)) ->
  reduce_ (Node (ArrayType e R)) axis dtype PNone
  = if is_None axis then Ok (Some d)
    else
      axis_type ← get_type axis;
      if is_tuple axis_type && is_sized axis_type then
        k ← size_of axis_type; Ok (Some (ArrayType d (R - k)))
      else if is_int axis_type then Ok (Some (ArrayType d (R - 1)))
      else Ok (Some object_).
Proof.
  intros Hd. unfold reduce_. cbn. rewrite Hd. cbn.
  destruct axis as [| ax | ax]; cbn; try reflexivity.
Qed.

(** C4.  [sum]/[prod] do not follow the axis policy on every array with
    [out] absent.  With no dtype argument the default handed to
    [get_dtype] is the element kind of the array, a type of the type
    system, which [np.dtype] rejects: the call leaves with [TypeError]
    whatever the axis, also when the axis is absent or unrecognised.  With
    a dtype argument for which no dtype is found, [.dtype] is read from
    [None] and the call leaves with [AttributeError], whatever the
    axis. *)
Theorem reduce_raises_before_axis :
  forall (ctx : context) (s s' : scalar) (R : Z) (axis : pyval),
    let a := Node (ArrayType (Scalar s) R) in
    reduce_ a axis PNone PNone = Raise TypeError
    /\ call ctx "sum" [a; axis; PNone; PNone] = Some (Raise TypeError)
    /\ call ctx "prod" [a; axis; PNone; PNone] = Some (Raise TypeError)
    /\ reduce_ a axis (Node (Scalar s')) PNone = Raise AttributeError
    /\ call ctx "sum" [Node (ArrayType float64 2); Node int64; PNone; PNone]
       = Some (Raise TypeError)
    /\ call ctx "sum" [Node (ArrayType float64 2); Node object_; Node int64; PNone]
       = Some (Raise AttributeError).
Proof. intros ctx s s' R axis a. repeat apply conj; reflexivity. Qed.

(** ** [dot] *)



(** ** [nonzero] *)

(** C6, as stated, fails: a scalar argument is coerced to an array of rank
    0 by [array_from_type], so [nonzero] sizes the tuple by that rank and
    answers a tuple of 0 elements, not of 1. *)
Lemma nonzero_scalar_is_not_singleton :
  is_array int64 = false
  /\ nonzero (Node int64) = Ok (Some (TupleType (PType index_array_t) 0 true))
  /\ nonzero (Node int64) <> Ok (Some (TupleType (PType index_array_t) 1 true)).
Proof. repeat apply conj; [reflexivity | reflexivity | discriminate]. Qed.

(** C6, amended.  [nonzero] of an array of rank [R] is the sized tuple of
    [R] index arrays; a scalar is coerced to an array of rank 0 first and
    gives the sized tuple of 0 index arrays; in general, whenever
    [array_from_type] coerces the type of the argument to an array of rank
    [n], the tuple has [n] elements. *)
Theorem nonzero_tuple_size :
  forall (ctx : context) (e : ntype) (R : Z) (s : scalar),
    nonzero (Node (ArrayType e R))
    = Ok (Some (TupleType (PType index_array_t) R true))
    /\ call ctx "nonzero" [Node (ArrayType e R)]
       = Some (Ok (Some (TupleType (PType index_array_t) R true)))
    /\ nonzero (Node (Scalar s))
       = Ok (Some (TupleType (PType index_array_t) 0 true))
    /\ (forall t e' n,
           array_from_type t = Ok (ArrayType e' n) ->
           nonzero (Node t)
           = Ok (Some (TupleType (PType index_array_t) n true)))
    /\ index_array_t = ArrayType npy_intp 1.
Proof.
  intros ctx e R s. repeat apply conj; try reflexivity.
  intros t e' n Ht. unfold nonzero. cbn [array_from_object]. now rewrite Ht.
Qed.

(** [nonzero] of a list of lists of floats. *)
Lemma nonzero_tuple_size_witness :
  nonzero (Node (ListType (Node (ListType (Node float64) 3 true)) 2 true))
  = Ok (Some (TupleType (PType index_array_t) 2 true)).
Proof.
  destruct (nonzero_tuple_size ctx0 float64 0 KBool) as (_ & _ & _ & H & _).
  apply (H _ float64 2). reflexivity.
Defined.

(** ** [empty_like], [zeros_like], [ones_like] *)


(** The body of [empty_like] on an array type. *)
Lemma empty_like_array (e : ntype) (R : Z) (dtype order : pyval) :
  empty_like (Node (ArrayType e R)) dtype order
  = if truthy dtype then
      dtype_type ← get_dtype dtype PNone;
      match dtype_type with
      | None => Ok (Some (ArrayType e R))
      | Some _ => d ← dtype_of dtype_type; Ok (Some (ArrayType d R))
      end
    else Ok (Some (ArrayType e R)).
Proof. reflexivity. Qed.



(** ** [arange] *)


(** ** Ranks *)

(** C9, as stated, fails: the rank of a reduction is a plain difference.
    Summing a rank-1 array over a sized tuple axis of two elements, with a
    dtype argument whose type is a dtype value, answers an array type of
    rank -1. *)
Lemma reduce_rank_can_be_negative :
  exists r : Z,
    call ctx0 "sum"
      [Node (ArrayType float64 1); Node (TupleType (PType int64) 2 true);
       Node (NumpyDtypeType (DtypeObject (KFloat 64))); PNone]
    = Some (Ok (Some (ArrayType (DtypeObject (KFloat 64)) r)))
    /\ r < 0.
Proof. exists (-1). split; [reflexivity | lia]. Qed.

(** C9, amended.  For an array of rank [R], a sized tuple axis of size
    [k] and a dtype argument that resolves to [d], [sum]/[prod] answer the
    array type of rank [R - k] exactly, with no clamping: the rank is
    non-negative if and only if [k <= R].  Likewise the rank [m + n - 2]
    that [dot] answers is non-negative if and only if [2 <= m + n]. *)
Theorem reduce_rank_exact :
  forall (ctx : context) (e d ea eb : ntype) (R k m n : Z)
         (element dtype : pyval),
    get_dtype dtype (PType e) = Ok (Some (NumpyDtypeType d)) ->
    let a := Node (ArrayType e R) in
    let axis := Node (TupleType element k true) in
    exists r r' : Z,
      call ctx "sum" [a; axis; dtype; PNone] = Some (Ok (Some (ArrayType d r)))
      /\ call ctx "prod" [a; axis; dtype; PNone]
         = Some (Ok (Some (ArrayType d r)))
      /\ r = R - k
      /\ (0 <= r <-> k <= R)
      /\ dot ctx (Node (ArrayType ea m)) (Node (ArrayType eb n)) PNone
         = Ok (Some (ArrayType (promote_types ctx ea eb) r'))
      /\ (0 <= r' <-> 2 <= m + n).
Proof.
  intros ctx e d ea eb R k m n element dtype Hd a axis.
  exists (R - k), (m + n - 2).
  assert (Hr : reduce_ a axis dtype PNone = Ok (Some (ArrayType d (R - k)))).
  { subst a axis. now rewrite (reduce_array_resolved e d R _ dtype Hd). }
  repeat apply conj; try reflexivity; try lia.
  - exact (f_equal Some Hr).
  - exact (f_equal Some Hr).
Qed.

(** [np.sum(a, axis=(0, 1), dtype=np.int32)] on a matrix and on a
    vector. *)
Lemma reduce_rank_exact_witness :
  exists r r' : Z,
    call ctx0 "sum"
      [Node (ArrayType float64 1); Node (TupleType (Node int64) 2 true);
       Node (NumpyAttributeType np "int32"); PNone]
    = Some (Ok (Some (ArrayType (DtypeObject (KInt 32 true)) r)))
    /\ call ctx0 "prod"
         [Node (ArrayType float64 1); Node (TupleType (Node int64) 2 true);
          Node (NumpyAttributeType np "int32"); PNone]
       = Some (Ok (Some (ArrayType (DtypeObject (KInt 32 true)) r)))
    /\ r = 1 - 2
    /\ (0 <= r <-> 2 <= 1)
    /\ dot ctx0 (Node (ArrayType float64 2)) (Node (ArrayType int64 1)) PNone
       = Ok (Some (ArrayType (promote_types ctx0 float64 int64) r'))
    /\ (0 <= r' <-> 2 <= 2 + 1).
Proof.
  apply (reduce_rank_exact ctx0 float64 (DtypeObject (KInt 32 true))
           float64 int64 1 2 2 1 (Node int64)
           (Node (NumpyAttributeType np "int32"))).
  vm_compute. reflexivity.
Defined.

(** ** Coercion to arrays *)



(** * Further properties of the module *)

(** ** Coercion of sequence literals *)

Lemma array_from_type_wrap (w : level) (t : ntype) :
  array_from_type (wrap w t)
  = r ← array_from_type t;
    match r with
    | ArrayType e n => Ok (ArrayType e (n + 1))
    | _ => Ok object_
    end.
Proof. destruct w as [[[] size] sized]; reflexivity. Qed.

(** X1.  The rank [array_from_type] infers for a sequence literal is its
    nesting depth, whatever the sizes of the levels: around an array of
    rank [n] it is [n] plus the depth, around a scalar it is the depth,
    and around [object_] the answer is [object_]. *)
Theorem array_from_type_nesting_depth :
  forall (ws : list level) (e : ntype) (n : Z) (s : scalar),
    array_from_type (sequence_of ws (ArrayType e n))
    = Ok (ArrayType e (n + Z.of_nat (length ws)))
    /\ array_from_type (sequence_of ws (Scalar s))
       = Ok (ArrayType (Scalar s) (Z.of_nat (length ws)))
    /\ array_from_type (sequence_of ws object_) = Ok object_.
Proof.
  intros ws e n s.
  induction ws as [| w ws (IHa & IHs & IHo)].
  - repeat apply conj; cbn; try reflexivity. now rewrite Z.add_0_r.
  - cbn [sequence_of length]. rewrite !array_from_type_wrap.
    rewrite IHa, IHs, IHo, !bind_Ok. rewrite Nat2Z.inj_succ.
    repeat apply conj; try reflexivity; do 2 f_equal; lia.
Qed.







(** ** Resolution of dtypes *)

(** [resolve_attribute_dtype] on an attribute token, by what the module
    holds under the name. *)
Lemma resolve_attribute_dtype_member (m : gmap string np_member) (a : string) :
  resolve_attribute_dtype (NumpyAttributeType m a)
  = match m !! a with
    | Some (NpDtype s) | Some (NpGeneric s) =>
        Ok (Some (NumpyDtypeType (DtypeObject s)))
    | Some NpClass => Ok None
    | Some NpValue | None => Raise TypeError
    end.
Proof.
  unfold resolve_attribute_dtype. cbn.
  destruct (m !! a) as [[s | s | |] |]; reflexivity.
Qed.

(** X4.  Resolving is idempotent: what [resolve_attribute_dtype] answers
    resolves to itself, and so [np.dtype] applied to an expression whose
    type is the answer of [np.dtype] gives that type again. *)
Theorem resolve_attribute_dtype_idempotent :
  forall (t r : ntype) (align align' : pyval),
    (resolve_attribute_dtype t = Ok (Some r) ->
     resolve_attribute_dtype r = Ok (Some r))
    /\ (dtype (Node t) align = Ok (Some r) ->
        dtype (Node r) align' = Ok (Some r)).
Proof.
  intros t r align align'.
  assert (H : resolve_attribute_dtype t = Ok (Some r) ->
              resolve_attribute_dtype r = Ok (Some r)).
  { intros Hr. apply resolve_attribute_dtype_is_numpy_dtype in Hr.
    unfold resolve_attribute_dtype. now rewrite Hr. }
  split; [exact H |]. exact H.
Qed.

Lemma resolve_attribute_dtype_idempotent_witness :
  dtype (Node (NumpyDtypeType (DtypeObject (KFloat 32)))) PNone
  = Ok (Some (NumpyDtypeType (DtypeObject (KFloat 32)))).
Proof.
  apply (resolve_attribute_dtype_idempotent
           (NumpyAttributeType np "float32")
           (NumpyDtypeType (DtypeObject (KFloat 32))) PNone PNone).
  vm_compute. reflexivity.
Defined.

(** X5.  An attribute token resolves through the module it names: once a
    scalar class or a dtype instance of kind [s] is bound to the name, the
    token resolves to the dtype value that holds the [numpy.dtype] of [s];
    binding another name leaves
    the resolution unchanged; and a token resolves to a dtype only if the
    module holds such a member under its name. *)
Theorem resolve_attribute_dtype_follows_module :
  forall (m : gmap string np_member) (a b : string) (s : scalar) (x : np_member),
    resolve_attribute_dtype (NumpyAttributeType (<[a := NpGeneric s]> m) a)
    = Ok (Some (NumpyDtypeType (DtypeObject s)))
    /\ resolve_attribute_dtype (NumpyAttributeType (<[a := NpDtype s]> m) a)
       = Ok (Some (NumpyDtypeType (DtypeObject s)))
    /\ (a <> b ->
        resolve_attribute_dtype (NumpyAttributeType (<[b := x]> m) a)
        = resolve_attribute_dtype (NumpyAttributeType m a))
    /\ (forall r,
           resolve_attribute_dtype (NumpyAttributeType m a) = Ok (Some r) ->
           exists s', r = NumpyDtypeType (DtypeObject s')
                      /\ (m !! a = Some (NpDtype s')
                          \/ m !! a = Some (NpGeneric s'))).
Proof.
  intros m a b s x. rewrite !resolve_attribute_dtype_member.
  repeat apply conj.
  - now rewrite lookup_insert_eq.
  - now rewrite lookup_insert_eq.
  - intros Hab. rewrite lookup_insert_ne by congruence. reflexivity.
  - intros r. destruct (m !! a) as [[s' | s' | |] |]; try discriminate;
      intros [= <-]; exists s'; auto.
Qed.

Lemma resolve_attribute_dtype_follows_module_witness :
  resolve_attribute_dtype
    (NumpyAttributeType (<["half" := NpGeneric (KFloat 16)]> np) "int32")
  = resolve_attribute_dtype (NumpyAttributeType np "int32")
  /\ exists s', NumpyDtypeType (DtypeObject (KInt 32 true))
                = NumpyDtypeType (DtypeObject s')
                /\ (np !! "int32" = Some (NpDtype s')
                    \/ np !! "int32" = Some (NpGeneric s')).
Proof.
  destruct (resolve_attribute_dtype_follows_module
              np "int32" "half" (KFloat 16) (NpGeneric (KFloat 16)))
    as (_ & _ & Hne & Honly).
  split.
  - apply Hne. discriminate.
  - apply Honly. vm_compute. reflexivity.
Defined.

(** X6.  Whatever [get_dtype] answers other than [None] is a dtype-value
    type, so reading [.dtype] from it succeeds; [.dtype] can only fail on
    the [None] answer.  With no dtype argument and no default the answer
    is [None]. *)
Theorem get_dtype_answers_dtype_value :
  forall (dtype_arg default_dtype : pyval) (r : option ntype),
    get_dtype dtype_arg default_dtype = Ok r ->
    (r = None /\ dtype_of r = Raise AttributeError)
    \/ (exists e, r = Some (NumpyDtypeType e) /\ dtype_of r = Ok e).
Proof.
  intros dtype_arg default_dtype r. unfold get_dtype.
  destruct dtype_arg as [| t | t]; cbn.
  - destruct default_dtype as [| d | d]; cbn; try discriminate.
    + intros [= <-]. now left.
    + destruct d; try discriminate. cbn. intros [= <-]. right. eauto.
  - intros Hr. destruct r as [r |]; [right | now left].
    pose proof (resolve_attribute_dtype_is_numpy_dtype _ _ Hr) as Hd.
    destruct r; try discriminate Hd. eauto.
  - discriminate.
Qed.

Lemma get_dtype_answers_dtype_value_witness :
  (Some (NumpyDtypeType int64) = None
   /\ dtype_of (Some (NumpyDtypeType int64)) = Raise AttributeError)
  \/ (exists e, Some (NumpyDtypeType int64) = Some (NumpyDtypeType e)
                /\ dtype_of (Some (NumpyDtypeType int64)) = Ok e).
Proof.
  apply (get_dtype_answers_dtype_value (Node (NumpyDtypeType int64)) PNone).
  reflexivity.
Defined.

(** ** Binary resolvers: [dot] and [where] *)

Lemma array_from_object_no_TypeError (a : pyval) :
  array_from_object a <> Raise TypeError.
Proof. apply array_from_no_TypeError. Qed.

Lemma promote_to_array_shape (t : ntype) :
  exists e n, promote_to_array t = ArrayType e n.
Proof. destruct t; cbn; eauto. Qed.

Section SymmetricPromotion.

Variable ctx : context.
Hypothesis promote_types_comm :
  forall a b, promote_types ctx a b = promote_types ctx b a.

(** X7.  When the promotion of the context is symmetric, [dot] does not
    depend on the order of its operands, failures included: the rank is a
    sum, and an absent operand on either side is the same
    [AttributeError]. *)
Theorem dot_operands_commute :
  forall a b out : pyval, dot ctx a b out = dot ctx b a out.
Proof.
  intros a b out. unfold dot.
  destruct (negb (is_None out)); [reflexivity |].
  destruct a as [| ta | ta], b as [| tb | tb]; try reflexivity.
  cbn [get_type variable_type_of mbind result_bind].
  destruct (promote_to_array_shape ta) as (ea & m & ->).
  destruct (promote_to_array_shape tb) as (eb & n & ->).
  cbn. now rewrite promote_types_comm, (Z.add_comm m n).
Qed.

(** X8.  When the promotion of the context is symmetric, [where] does not
    depend on the order of [x] and [y], failures included. *)
Theorem where_branches_commute :
  forall condition x y : pyval,
    where_ ctx condition x y = where_ ctx condition y x.
Proof.
  intros condition x y. unfold where_.
  rewrite (andb_comm (is_None y)).
  destruct (is_None x && is_None y); [reflexivity |].
  pose proof (array_from_object_no_TypeError x) as Hx.
  pose proof (array_from_object_no_TypeError y) as Hy.
  destruct (array_from_object x) as [tx | []],
           (array_from_object y) as [ty | []];
    cbn; first [ reflexivity | congruence | now rewrite promote_types_comm ].
Qed.

End SymmetricPromotion.

Lemma ctx_sym_comm (a b : ntype) :
  promote_types ctx_sym a b = promote_types ctx_sym b a.
Proof. cbn. now rewrite orb_comm. Qed.

Lemma dot_operands_commute_witness :
  dot ctx_sym (Node (ArrayType float64 2)) (Node int64) PNone
  = dot ctx_sym (Node int64) (Node (ArrayType float64 2)) PNone.
Proof. apply (dot_operands_commute ctx_sym ctx_sym_comm). Defined.

Lemma where_branches_commute_witness :
  where_ ctx_sym PNone (Node (ArrayType float64 2)) PNone
  = where_ ctx_sym PNone PNone (Node (ArrayType float64 2)).
Proof. apply (where_branches_commute ctx_sym ctx_sym_comm). Defined.



(** A sequence of steps whose last one answers a type cannot answer
    [None]. *)
Lemma bind_never {A B} (m : result A) (f : A -> result B) (r : B) :
  (forall x, f x <> Ok r) -> (m ≫= f) <> Ok r.
Proof. intros Hf. destruct m as [x | e]; [apply Hf | discriminate]. Qed.

Ltac never_none :=
  repeat first
    [ discriminate
    | apply bind_never; intros ?
    | match goal with
      | |- (if ?c then _ else _) <> _ => destruct c
      | |- (let _ := _ in _) <> _ => cbv zeta
      end ].

(** X10.  [array], [nonzero], [where], [dot], [sum] and [prod] never
    answer [None]: each call either yields a type or fails. *)
Theorem resolvers_without_unresolved :
  forall (ctx : context) (a b c d : pyval),
    array a b c d <> Ok None
    /\ nonzero a <> Ok None
    /\ where_ ctx a b c <> Ok None
    /\ dot ctx a b c <> Ok None
    /\ reduce_ a b c d <> Ok None.
Proof.
  intros ctx a b c d.
  assert (Hnz : forall a, nonzero a <> Ok None).
  { intros x. unfold nonzero, _nonzero. never_none. }
  repeat apply conj.
  - unfold array. never_none.
  - apply Hnz.
  - unfold where_. destruct (is_None b && is_None c); [apply Hnz |].
    never_none.
  - unfold dot. never_none.
  - unfold reduce_. never_none.
Qed.

(** ** Reductions *)

(** X11.  For [sum]/[prod] an integer axis and a sized tuple axis of one
    element are the same request: the two calls agree on every [a],
    [dtype] and [out], failures included. *)
Theorem reduce_int_axis_is_unit_tuple_axis :
  forall (a dtype out : pyval) (ax : ntype) (element : pyval),
    is_int ax = true ->
    reduce_ a (Node ax) dtype out
    = reduce_ a (Node (TupleType element 1 true)) dtype out.
Proof.
  intros a dtype out ax element Hint. unfold reduce_.
  destruct (negb (is_None out)); [reflexivity |].
  destruct (get_type a) as [ta | e]; [| reflexivity].
  rewrite !bind_Ok.
  destruct (dtype_attr ta) as [dd | e]; [| reflexivity].
  rewrite !bind_Ok.
  destruct (get_dtype dtype dd) as [dt | e]; [| reflexivity].
  rewrite !bind_Ok.
  destruct (dtype_of dt) as [d | e]; [| reflexivity].
  cbn. rewrite Hint.
  destruct ax; try discriminate Hint. cbn.
  destruct (ndim_of ta); reflexivity.
Qed.

Lemma reduce_int_axis_is_unit_tuple_axis_witness :
  reduce_ (Node (ArrayType float64 3)) (Node int64) PNone PNone
  = reduce_ (Node (ArrayType float64 3))
      (Node (TupleType (Node int64) 1 true)) PNone PNone.
Proof.
  apply (reduce_int_axis_is_unit_tuple_axis
           (Node (ArrayType float64 3)) PNone PNone int64 (Node int64)).
  reflexivity.
Defined.

(** X12.  Reductions compose: with a dtype argument that resolves,
    reducing an array over a sized tuple axis of [k] elements and the
    answer over one of [j] elements, with the same dtype argument, gives
    the type of one reduction over [k + j] elements. *)
Theorem reduce_composes :
  forall (e d : ntype) (R k j : Z) (dtype el1 el2 el3 : pyval),
    get_dtype dtype (PType e) = Ok (Some (NumpyDtypeType d)) ->
    exists r,
      reduce_ (Node (ArrayType e R)) (Node (TupleType el1 k true)) dtype PNone
      = Ok (Some r)
      /\ reduce_ (Node r) (Node (TupleType el2 j true)) dtype PNone
         = reduce_ (Node (ArrayType e R))
             (Node (TupleType el3 (k + j) true)) dtype PNone.
Proof.
  intros e d R k j dtype el1 el2 el3 Hd.
  assert (Hd' : get_dtype dtype (PType d) = Ok (Some (NumpyDtypeType d))).
  { destruct dtype as [| t | t].
    - rewrite get_dtype_absent in Hd.
      destruct e; try discriminate Hd. injection Hd as <-. reflexivity.
    - now rewrite get_dtype_present in *.
    - discriminate Hd. }
  exists (ArrayType d (R - k)).
  rewrite (reduce_array_resolved e d R _ dtype Hd).
  rewrite (reduce_array_resolved d d (R - k) _ dtype Hd').
  rewrite (reduce_array_resolved e d R _ dtype Hd).
  cbn. split; [reflexivity |]. do 3 f_equal. lia.
Qed.

Lemma reduce_composes_witness :
  exists r,
    reduce_ (Node (ArrayType float64 4)) (Node (TupleType PNone 1 true))
      (Node (NumpyAttributeType np "int32")) PNone
    = Ok (Some r)
    /\ reduce_ (Node r) (Node (TupleType PNone 2 true))
         (Node (NumpyAttributeType np "int32")) PNone
       = reduce_ (Node (ArrayType float64 4))
           (Node (TupleType PNone (1 + 2) true))
           (Node (NumpyAttributeType np "int32")) PNone.
Proof.
  apply (reduce_composes float64 (DtypeObject (KInt 32 true)) 4 1 2
           (Node (NumpyAttributeType np "int32")) PNone PNone PNone).
  vm_compute. reflexivity.
Defined.

(** ** Constructors *)






Lemma arange_dtype_value (start stop step : pyval) (d : ntype) :
  arange start stop step (Node (NumpyDtypeType d))
  = r ← getitem_slice d; Ok (Some r).
Proof. reflexivity. Qed.

(** X15.  [arange] yields a type only for a dtype argument whose type is
    a dtype value holding a type of the type system, of which it answers
    the one-dimensional array.  In every other case it answers [None] or
    fails; in particular it yields no type when the dtype argument is
    absent and none for an attribute token. *)
Theorem arange_yields_iff :
  forall (start stop step dtype : pyval) (r : ntype),
    arange start stop step dtype = Ok (Some r)
    <-> exists d, dtype = Node (NumpyDtypeType d)
                  /\ getitem_slice d = Ok r.
Proof.
  intros start stop step dtype r. split.
  - destruct dtype as [| t | t]; [discriminate | | discriminate].
    destruct t as [| | d | m a | | | |]; try discriminate.
    + rewrite arange_dtype_value.
      destruct (getitem_slice d) as [x |] eqn:Hx; [| discriminate].
      intros [= <-]. exists d. split; [reflexivity | exact Hx].
    + unfold arange. rewrite get_dtype_present, resolve_attribute_dtype_member.
      destruct (m !! a) as [[s | s | |] |]; discriminate.
  - intros (d & -> & Hd). now rewrite arange_dtype_value, Hd.
Qed.

Lemma arange_yields_iff_witness :
  arange PNone (Node int64) PNone (Node (NumpyDtypeType float64))
  = Ok (Some (ArrayType float64 1)).
Proof.
  apply (arange_yields_iff PNone (Node int64) PNone
           (Node (NumpyDtypeType float64)) (ArrayType float64 1)).
  exists float64. split; reflexivity.
Defined.

(** ** [empty_like] *)

Lemma get_dtype_is_dtype_value (dtype_arg default_dtype : pyval) (x : ntype) :
  get_dtype dtype_arg default_dtype = Ok (Some x) ->
  exists d, x = NumpyDtypeType d.
Proof.
  unfold get_dtype. destruct dtype_arg as [| t | t]; cbn.
  - destruct default_dtype as [| d | d]; cbn; try discriminate.
    destruct d; try discriminate. cbn. intros [= <-]. eauto.
  - intros Hr. apply resolve_attribute_dtype_is_numpy_dtype in Hr.
    destruct x; try discriminate Hr. eauto.
  - discriminate.
Qed.

(** What [empty_like] can answer with a type: [a] is a node of array
    type, and the answer is an array of the same rank. *)
Lemma empty_like_answer (a dtype order : pyval) (r : ntype) :
  empty_like a dtype order = Ok (Some r) ->
  exists e d R,
    a = Node (ArrayType e R) /\ r = ArrayType d R
    /\ (truthy dtype = false /\ d = e
        \/ truthy dtype = true /\ get_dtype dtype PNone = Ok None /\ d = e
        \/ truthy dtype = true
           /\ get_dtype dtype PNone = Ok (Some (NumpyDtypeType d))).
Proof.
  destruct a as [| t | t]; try discriminate.
  destruct t as [| e R | | | | | |]; try discriminate.
  rewrite empty_like_array. intros H. exists e.
  destruct (truthy dtype) eqn:Htr.
  - destruct (get_dtype dtype PNone) as [[x |] | err] eqn:Hg;
      try discriminate H.
    + destruct (get_dtype_is_dtype_value _ _ _ Hg) as (d & ->).
      cbn in H. injection H as <-. exists d, R.
      split; [reflexivity | split; [reflexivity |]]. right. right. auto.
    + cbn in H. injection H as <-. exists e, R.
      split; [reflexivity | split; [reflexivity |]]. right. left. auto.
  - injection H as <-. exists e, R.
    split; [reflexivity | split; [reflexivity |]]. left. auto.
Qed.

(** X16.  [empty_like] is idempotent: applied, with the same dtype
    argument, to an expression whose type is its own answer, it gives that
    answer again. *)
Theorem empty_like_idempotent :
  forall (a dtype order order' : pyval) (r : ntype),
    empty_like a dtype order = Ok (Some r) ->
    empty_like (Node r) dtype order' = Ok (Some r).
Proof.
  intros a dtype order order' r H.
  destruct (empty_like_answer _ _ _ _ H)
    as (e & d & R & -> & -> & [(Htr & ->) | [(Htr & Hg & ->) | (Htr & Hg)]]);
    rewrite empty_like_array, Htr; try rewrite Hg; reflexivity.
Qed.

Lemma empty_like_idempotent_witness :
  empty_like (Node (ArrayType (DtypeObject (KInt 32 true)) 2))
    (Node (NumpyAttributeType np "int32")) PNone
  = Ok (Some (ArrayType (DtypeObject (KInt 32 true)) 2)).
Proof.
  apply (empty_like_idempotent (Node (ArrayType float64 2))
           (Node (NumpyAttributeType np "int32")) (Node int64)).
  vm_compute. reflexivity.
Defined.

(** X17.  On an array, [empty_like] never answers [None] and never
    changes the rank: it fails exactly when a dtype argument is given and
    [get_dtype] fails on it, and otherwise answers an array type of the
    rank of [a]. *)
Theorem empty_like_on_array :
  forall (e : ntype) (R : Z) (dtype order : pyval),
    raises (empty_like (Node (ArrayType e R)) dtype order)
    = truthy dtype && raises (get_dtype dtype PNone)
    /\ (forall r, empty_like (Node (ArrayType e R)) dtype order = Ok r ->
                  exists d, r = Some (ArrayType d R)).
Proof.
  intros e R dtype order. rewrite empty_like_array.
  destruct (truthy dtype); cbn.
  - destruct (get_dtype dtype PNone) as [[x |] | err] eqn:Hg; cbn.
    + destruct (get_dtype_is_dtype_value _ _ _ Hg) as (d & ->). cbn.
      split; [reflexivity |]. intros r [= <-]. eauto.
    + split; [reflexivity |]. intros r [= <-]. eauto.
    + split; [reflexivity | discriminate].
  - split; [reflexivity |]. intros r [= <-]. eauto.
Qed.

Lemma empty_like_on_array_witness :
  exists d,
    Some (ArrayType float64 3) = Some (ArrayType d 3).
Proof.
  apply (empty_like_on_array float64 3 (Node object_) PNone).
  reflexivity.
Defined.

(** ** [array] and [nonzero] *)

(** X18.  [nonzero] answers as many index arrays as the rank [array]
    infers for the same expression. *)
Theorem nonzero_size_is_array_rank :
  forall (a dtype order subok : pyval) (e : ntype) (n : Z),
    array a dtype order subok = Ok (Some (ArrayType e n)) ->
    nonzero a = Ok (Some (TupleType (PType index_array_t) n true)).
Proof.
  intros a dtype order subok e n. unfold array, nonzero.
  destruct (array_from_object a) as [t | err]; [| discriminate].
  rewrite !bind_Ok.
  destruct (negb (is_None dtype)).
  - destruct (get_type dtype) as [d | err]; [| discriminate].
    rewrite bind_Ok. destruct t; cbn; intros [= <-]; try discriminate.
    subst. reflexivity.
  - intros [= ->]. reflexivity.
Qed.

Lemma nonzero_size_is_array_rank_witness :
  nonzero (Node (TupleType (Node (ListType (Node float64) 3 true)) 2 true))
  = Ok (Some (TupleType (PType index_array_t) 2 true)).
Proof.
  apply (nonzero_size_is_array_rank _ PNone PNone PNone float64 2).
  reflexivity.
Defined.

(** X19.  The dtype argument of [array] replaces the element kind and
    keeps the rank, and it is taken as the type of the argument itself
    ([get_type]), not resolved through [get_dtype]: an attribute token
    stays a token. *)
Theorem array_dtype_override :
  forall (object order subok : pyval) (e d : ntype) (n : Z),
    array object PNone order subok = Ok (Some (ArrayType e n)) ->
    array object (Node d) order subok = Ok (Some (ArrayType d n)).
Proof.
  intros object order subok e d n. unfold array.
  destruct (array_from_object object) as [t | err]; [| discriminate].
  cbn. intros [= ->]. reflexivity.
Qed.

Lemma array_dtype_override_witness :
  array (Node (ListType (Node int64) 4 true))
    (Node (NumpyAttributeType np "float32")) PNone PNone
  = Ok (Some (ArrayType (NumpyAttributeType np "float32") 1)).
Proof.
  apply (array_dtype_override _ PNone PNone int64). reflexivity.
Defined.

(** ** The axis of a reduction *)


